(** * Retry policies of [shared/retry_config.py] and the environment check
      of [day_one/test_env_vars.py]

    The retry module only configures the [tenacity] library: every preset is
    a call [retry(stop=stop_after_attempt(..), wait=wait_exponential(..),
    retry=retry_if_exception_type(..), before_sleep=.., reraise=True)].
    What a preset does is therefore what tenacity's strategy objects and its
    [Retrying] loop do with these arguments.  The development has four parts:

    - [Py]: Python exception classes, their bases and [isinstance];
    - [Tenacity]: the three strategy objects the module instantiates and the
      [Retrying.iter] / [Retrying.__call__] loop (tenacity 8.x and 9.x);
    - [RetryConfig]: the definitions of [shared/retry_config.py];
    - [TestEnvVars]: the script [day_one/test_env_vars.py].

    Seconds and attempt counts are Python integers at every call site of the
    repository; they are modelled as [Z].  [Tenacity.call] runs a policy
    with these exact seconds and a sleep that always returns;
    [Sleeping.call_sleeping] runs it with the seconds as tenacity stores
    them (doubles) and with [time.sleep], which refuses very long waits.
    The two agree for the presets and for every policy whose waits are
    whole seconds that a double holds exactly and [time.sleep] accepts. *)

From Stdlib Require Import ZArith Lia.
From stdpp Require Import base list strings pretty gmap.

Local Open Scope Z_scope.

(* ===================================================================== *)
(** ** Python exceptions *)
(* ===================================================================== *)

Module Py.

(** The built-in exception classes that matter for the retry predicates,
    and [Subclass name parent] for a class declared by a program as
    [class name(parent)]. *)
Inductive ExcClass : Type :=
  | BaseException
  | KeyboardInterrupt
  | Exception
  | ValueError
  | RuntimeError
  | ImportError
  | ModuleNotFoundError
  | OSError
  | ConnectionError
  | BrokenPipeError
  | ConnectionAbortedError
  | ConnectionRefusedError
  | ConnectionResetError
  | TimeoutError
  | Subclass (name : string) (parent : ExcClass).

#[global] Instance ExcClass_eq_dec : EqDecision ExcClass.
Proof. solve_decision. Defined.

(** Proper ancestors of a built-in class, nearest first. *)
Definition builtin_bases (c : ExcClass) : list ExcClass :=
  match c with
  | BaseException => []
  | KeyboardInterrupt | Exception => [BaseException]
  | ValueError | RuntimeError | ImportError | OSError =>
      [Exception; BaseException]
  | ModuleNotFoundError => [ImportError; Exception; BaseException]
  | ConnectionError | TimeoutError => [OSError; Exception; BaseException]
  | BrokenPipeError | ConnectionAbortedError
  | ConnectionRefusedError | ConnectionResetError =>
      [ConnectionError; OSError; Exception; BaseException]
  | Subclass _ _ => []
  end.

(** Method resolution order (single inheritance): the class, then its
    ancestors. *)
Fixpoint mro (c : ExcClass) : list ExcClass :=
  c :: match c with
       | Subclass _ p => mro p
       | _ => builtin_bases c
       end.

Definition issubclass (c d : ExcClass) : bool := bool_decide (d ∈ mro c).

(** An exception object: its class and its message.  Two raises of the
    same class are told apart by the message. *)
Record Exc : Type := mkExc { exc_type : ExcClass; exc_msg : string }.

#[global] Instance Exc_eq_dec : EqDecision Exc.
Proof. solve_decision. Defined.

(** [isinstance(e, (t1, ..., tn))]. *)
Definition isinstance (e : Exc) (types : list ExcClass) : bool :=
  existsb (issubclass (exc_type e)) types.

End Py.

(* ===================================================================== *)
(** ** The tenacity library, as far as [retry_config.py] uses it *)
(* ===================================================================== *)

Module Tenacity.
Import Py.

(** [class TryAgain(Exception)]: "Always retry the executed function when
    raised." *)
Definition TryAgain : ExcClass := Subclass "TryAgain" Exception.

(** [stop_after_attempt(max_attempt_number)]. *)
Record stop_after_attempt : Type :=
  { max_attempt_number : Z }.

(** [wait_exponential(multiplier=1, max=MAX_WAIT, exp_base=2, min=0)]. *)
Record wait_exponential : Type :=
  { multiplier : Z; wait_min : Z; wait_max : Z; exp_base : Z }.

(** [retry_if_exception_type(exception_types)]. *)
Record retry_if_exception_type : Type :=
  { exception_types : list ExcClass }.

(** The keyword arguments of [retry(...)] that the module passes.
    [before_sleep] is always [before_sleep_log(logger, WARNING)]: one
    warning record per sleep. *)
Record Retrying : Type :=
  { stop : stop_after_attempt;
    wait : wait_exponential;
    retry : retry_if_exception_type;
    reraise : bool }.

(** The wait after attempt [k] in closed form: [multiplier * exp_base^(k-1)]
    kept between [max(0, min)] and [max]. *)
Definition backoff (w : wait_exponential) (k : Z) : Z :=
  Z.max (Z.max 0 (wait_min w)) (Z.min (multiplier w * exp_base w ^ (k - 1)) (wait_max w)).

(** The waits after attempts [n], [n+1], ..., [n+d-1]. *)
Definition backoffs (w : wait_exponential) (n : Z) (d : nat) : list Z :=
  backoff w <$> seqZ n (Z.of_nat d).

Definition sumZ (l : list Z) : Z := foldr Z.add 0 l.

Section Call.

(** The type of the values the wrapped operation returns. *)
Context {A : Type}.

(** [Future]: how an attempt ended. *)
Inductive Outcome : Type :=
  | Returned (v : A)
  | Failed (e : Exc).

Definition failed (o : Outcome) : bool :=
  match o with Failed _ => true | Returned _ => false end.

(** [RetryCallState]: attempts are numbered from 1; [outcome] is [None]
    until the attempt has been made. *)
Record RetryCallState : Type :=
  { attempt_number : Z;
    outcome : option Outcome;
    idle_for : Z }.

(** What the caller of the wrapped function observes. *)
Inductive Result : Type :=
  | Return (v : A)
  | Raise (e : Exc)
  | RaiseRetryError (last_attempt : Outcome).

(** [stop_after_attempt.__call__]:
    [retry_state.attempt_number >= self.max_attempt_number]. *)
Definition stop_call (s : stop_after_attempt) (st : RetryCallState) : bool :=
  max_attempt_number s <=? attempt_number st.

(** [wait_exponential.__call__]:
    [exp = self.exp_base ** (retry_state.attempt_number - 1)];
    [result = self.multiplier * exp];
    [return max(max(0, self.min), min(result, self.max))]. *)
Definition wait_call (w : wait_exponential) (st : RetryCallState) : Z :=
  let exp := exp_base w ^ (attempt_number st - 1) in
  let result := multiplier w * exp in
  Z.max (Z.max 0 (wait_min w)) (Z.min result (wait_max w)).

(** [retry_if_exception.__call__]: only a failed attempt is retried, and
    only if [isinstance(exception, exception_types)]. *)
Definition retry_call (r : retry_if_exception_type) (o : Outcome) : bool :=
  match o with
  | Failed e => isinstance e (exception_types r)
  | Returned _ => false
  end.

(** [fut.result()]: the value, or the stored exception raised again. *)
Definition fut_result (o : Outcome) : Result :=
  match o with
  | Returned v => Return v
  | Failed e => Raise e
  end.

(** [RetryError(fut)] raised at the stop: with [reraise] and a failed last
    attempt, [RetryError.reraise] raises [last_attempt.result()], the
    original exception object; otherwise the [RetryError] itself. *)
Definition raise_retry_error (r : Retrying) (o : Outcome) : Result :=
  if reraise r && failed o then fut_result o else RaiseRetryError o.

(** The test of [iter] that decides whether a finished attempt may be
    followed by another: [is_explicit_retry or self.retry(retry_state)]. *)
Definition retry_requested (r : Retrying) (o : Outcome) : bool :=
  match o with
  | Failed e => issubclass (exc_type e) TryAgain
  | Returned _ => false
  end || retry_call (retry r) o.

Inductive Action : Type :=
  | DoAttempt
  | DoSleep (sleep : Z)
  | Finish (res : Result).

(** [Retrying.iter].  The returned state carries the update of
    [idle_for]. *)
Definition iter (r : Retrying) (st : RetryCallState) : Action * RetryCallState :=
  match outcome st with
  | None => (DoAttempt, st)
  | Some fut =>
      let is_explicit_retry :=
        match fut with
        | Failed e => issubclass (exc_type e) TryAgain
        | Returned _ => false
        end in
      if negb (is_explicit_retry || retry_call (retry r) fut) then
        (Finish (fut_result fut), st)
      else if stop_call (stop r) st then
        (Finish (raise_retry_error r fut), st)
      else
        let sleep := wait_call (wait r) st in
        (DoSleep sleep,
         {| attempt_number := attempt_number st;
            outcome := outcome st;
            idle_for := idle_for st + sleep |})
  end.

(** What a run leaves behind: how often the operation was invoked, the
    sleeps in order, and the number of warning records logged by
    [before_sleep]. *)
Record Trace : Type :=
  { calls : nat;
    sleeps : list Z;
    warnings : nat }.

Definition empty_trace : Trace :=
  {| calls := 0; sleeps := []; warnings := 0 |}.

Definition set_outcome (st : RetryCallState) (o : Outcome) : RetryCallState :=
  {| attempt_number := attempt_number st;
     outcome := Some o;
     idle_for := idle_for st |}.

Definition prepare_for_next_attempt (st : RetryCallState) : RetryCallState :=
  {| attempt_number := attempt_number st + 1;
     outcome := None;
     idle_for := idle_for st |}.

(** The [while True] loop of [Retrying.__call__].  The operation is a
    function of the number of times it has been invoked before, which
    covers operations with state.  One unit of fuel is one turn of the
    loop. *)
Fixpoint loop (fuel : nat) (r : Retrying) (fn : nat -> Outcome)
    (st : RetryCallState) (tr : Trace) : option (Result * Trace) :=
  match fuel with
  | O => None
  | S fuel' =>
      match iter r st with
      | (DoAttempt, st') =>
          loop fuel' r fn (set_outcome st' (fn (calls tr)))
            {| calls := S (calls tr);
               sleeps := sleeps tr;
               warnings := warnings tr |}
      | (DoSleep s, st') =>
          loop fuel' r fn (prepare_for_next_attempt st')
            {| calls := calls tr;
               sleeps := sleeps tr ++ [s];
               warnings := S (warnings tr) |}
      | (Finish res, _) => Some (res, tr)
      end
  end.

Definition initial_state : RetryCallState :=
  {| attempt_number := 1; outcome := None; idle_for := 0 |}.

(** Turns of the loop that always suffice: two per attempt, and one more
    to leave. *)
Definition enough_fuel (r : Retrying) : nat :=
  S (2 * Z.to_nat (Z.max 1 (max_attempt_number (stop r)))).

(** Calling the wrapped function. *)
Definition call (r : Retrying) (fn : nat -> Outcome) : option (Result * Trace) :=
  loop (enough_fuel r) r fn initial_state empty_trace.

End Call.

Arguments Outcome : clear implicits.
Arguments Result : clear implicits.
Arguments RetryCallState : clear implicits.
Arguments Action : clear implicits.

End Tenacity.

(* ===================================================================== *)
(** ** The option type of the provider library *)
(* ===================================================================== *)

Module GenaiTypes.

(** [google.genai.types.HttpRetryOptions]: every field is optional and is
    [None] unless the constructor call names it. *)
Record HttpRetryOptions : Type :=
  { attempts : option Z;
    initial_delay : option Z;
    max_delay : option Z;
    exp_base : option Z;
    jitter : option Z;
    http_status_codes : option (list Z) }.

#[global] Instance HttpRetryOptions_eq_dec : EqDecision HttpRetryOptions.
Proof. solve_decision. Defined.

End GenaiTypes.

(* ===================================================================== *)
(** ** [shared/retry_config.py] *)
(* ===================================================================== *)

Module RetryConfig.
Import Py Tenacity.

(** [class RateLimitError(Exception)] and its two siblings. *)
Definition RateLimitError : ExcClass := Subclass "RateLimitError" Exception.
Definition APIConnectionError : ExcClass := Subclass "APIConnectionError" Exception.
Definition APITimeoutError : ExcClass := Subclass "APITimeoutError" Exception.

(** [with_retry(max_attempts=5, min_wait=1, max_wait=60, multiplier=2)]. *)
Definition with_retry (max_attempts min_wait max_wait multiplier : Z) : Retrying :=
  {| stop := {| max_attempt_number := max_attempts |};
     wait := {| Tenacity.multiplier := multiplier;
                wait_min := min_wait;
                wait_max := max_wait;
                exp_base := 2 |};
     retry := {| exception_types :=
                   [RateLimitError; APIConnectionError; APITimeoutError;
                    ConnectionError; TimeoutError] |};
     reraise := true |}.

(** [with_retry()] with every default. *)
Definition with_retry_defaults : Retrying := with_retry 5 1 60 2.

(** Standard preset. *)
Definition api_retry : Retrying :=
  {| stop := {| max_attempt_number := 5 |};
     wait := {| multiplier := 1; wait_min := 1; wait_max := 60; exp_base := 2 |};
     retry := {| exception_types :=
                   [RateLimitError; APIConnectionError; APITimeoutError;
                    ConnectionError; TimeoutError] |};
     reraise := true |}.

(** Aggressive preset. *)
Definition aggressive_retry : Retrying :=
  {| stop := {| max_attempt_number := 10 |};
     wait := {| multiplier := 2; wait_min := 2; wait_max := 120; exp_base := 2 |};
     retry := {| exception_types :=
                   [RateLimitError; APIConnectionError; APITimeoutError;
                    ConnectionError; TimeoutError] |};
     reraise := true |}.

(** Conservative preset. *)
Definition conservative_retry : Retrying :=
  {| stop := {| max_attempt_number := 3 |};
     wait := {| multiplier := 1; wait_min := 1; wait_max := 30; exp_base := 2 |};
     retry := {| exception_types :=
                   [RateLimitError; APIConnectionError; APITimeoutError] |};
     reraise := true |}.

(** The three named presets. *)
Definition presets : list Retrying :=
  [api_retry; aggressive_retry; conservative_retry].

(** The error kinds a policy retries. *)
Definition retryable_error_kinds (r : Retrying) : list ExcClass :=
  exception_types (retry r).

(** An operation that fails on every invocation with an exception that is
    an instance of one of [types]. *)
Definition keeps_raising {A : Type} (types : list ExcClass)
    (fn : nat → Outcome A) : Prop :=
  ∀ i, ∃ e, fn i = Failed e ∧ isinstance e types = true.

(** The same for the first [d] invocations only. *)
Definition raises_first {A : Type} (d : nat) (types : list ExcClass)
    (fn : nat → Outcome A) : Prop :=
  ∀ i, (i < d)%nat → ∃ e, fn i = Failed e ∧ isinstance e types = true.


(** Sample operations: one that is rate limited on every invocation, one
    that cannot connect, and one that asks tenacity for another attempt
    once and then returns. *)
Definition rate_limited : nat → Outcome unit :=
  λ _, Failed (mkExc RateLimitError "429 Too Many Requests").

Definition connection_refused : nat → Outcome unit :=
  λ _, Failed (mkExc ConnectionError "connection refused").

Definition api_timed_out : nat → Outcome unit :=
  λ i, Failed (mkExc APITimeoutError ("timeout " +:+ pretty i)).

Definition tries_again_once : nat → Outcome unit :=
  λ i, match i with
       | O => Failed (mkExc TryAgain "")
       | S _ => Returned tt
       end.

Definition bad_request : nat → Outcome unit :=
  λ _, Failed (mkExc ValueError "400 Bad Request").

(** How [from google.genai import types] ended. *)
Inductive ImportOutcome : Type :=
  | Imported
  | ImportRaised (e : Exc).

(** The names the second half of the module binds. *)
Record Bindings : Type :=
  { GOOGLE_ADK_AVAILABLE : bool;
    api_retry_options : option GenaiTypes.HttpRetryOptions;
    aggressive_retry_options : option GenaiTypes.HttpRetryOptions;
    conservative_retry_options : option GenaiTypes.HttpRetryOptions }.

(** [types.HttpRetryOptions(attempts=.., exp_base=.., initial_delay=..,
    http_status_codes=..)]. *)
Definition HttpRetryOptions (attempts exp_base initial_delay : Z)
    (http_status_codes : list Z) : GenaiTypes.HttpRetryOptions :=
  {| GenaiTypes.attempts := Some attempts;
     GenaiTypes.initial_delay := Some initial_delay;
     GenaiTypes.max_delay := None;
     GenaiTypes.exp_base := Some exp_base;
     GenaiTypes.jitter := None;
     GenaiTypes.http_status_codes := Some http_status_codes |}.

(** [o] with the attempts and the initial delay of [p]. *)
Definition with_attempts_and_delay_of (p o : GenaiTypes.HttpRetryOptions)
    : GenaiTypes.HttpRetryOptions :=
  {| GenaiTypes.attempts := GenaiTypes.attempts p;
     GenaiTypes.initial_delay := GenaiTypes.initial_delay p;
     GenaiTypes.max_delay := GenaiTypes.max_delay o;
     GenaiTypes.exp_base := GenaiTypes.exp_base o;
     GenaiTypes.jitter := GenaiTypes.jitter o;
     GenaiTypes.http_status_codes := GenaiTypes.http_status_codes o |}.

(** Two bound options that exist and agree on every field other than
    attempts and initial delay. *)
Definition differ_only_in_attempts_and_delay
    (o o' : option GenaiTypes.HttpRetryOptions) : Prop :=
  ∃ a b, o = Some a ∧ o' = Some b ∧ with_attempts_and_delay_of b a = b.

(** Executing the module, given how the import of the provider library
    ends: [try: ... except ImportError: ...], then [if GOOGLE_ADK_AVAILABLE:
    ... else: ...].  An exception that [except ImportError] does not catch
    leaves the module. *)
Definition load_module (imp : ImportOutcome) : Exc + Bindings :=
  match imp with
  | Imported =>
      inr {| GOOGLE_ADK_AVAILABLE := true;
             api_retry_options :=
               Some (HttpRetryOptions 5 2 1 [429; 500; 503; 504]);
             aggressive_retry_options :=
               Some (HttpRetryOptions 10 2 2 [429; 500; 503; 504]);
             conservative_retry_options :=
               Some (HttpRetryOptions 3 2 1 [429; 500; 503; 504]) |}
  | ImportRaised e =>
      if isinstance e [ImportError] then
        inr {| GOOGLE_ADK_AVAILABLE := false;
               api_retry_options := None;
               aggressive_retry_options := None;
               conservative_retry_options := None |}
      else inl e
  end.

(** The three provider options a loaded module binds, in the order
    standard, aggressive, conservative. *)
Definition provider_options (b : Bindings) : list (option GenaiTypes.HttpRetryOptions) :=
  [api_retry_options b; aggressive_retry_options b; conservative_retry_options b].

End RetryConfig.

(* ===================================================================== *)
(** ** [day_one/test_env_vars.py] *)
(* ===================================================================== *)

Module TestEnvVars.

(** [load_dotenv()]: the variables of the [.env] file are added to the
    process environment; a variable that is already there keeps its
    value.  [dotenv] is what python-dotenv has read from the file
    ([dotenv_values]): each key that has a value, with the value as
    resolved, that is without its quotes and with [${NAME}] references
    expanded. *)
Definition load_dotenv (dotenv environ : gmap string string) : gmap string string :=
  environ ∪ dotenv.

(** [os.getenv(key)]. *)
Definition getenv (environ : gmap string string) (key : string) : option string :=
  environ !! key.

(** Truth value of [os.getenv(..)] in an [if]: [None] and the empty
    string are false. *)
Definition truthy (v : option string) : bool :=
  match v with
  | Some s => negb (bool_decide (s = ""))
  | None => false
  end.

(** A key counts as set when the script's test of it succeeds. *)
Definition is_set (environ : gmap string string) (key : string) : bool :=
  truthy (getenv environ key).

(** The value an f-string field shows; the script formats the key only
    where it is a string. *)
Definition format_value (v : option string) : string :=
  match v with
  | Some s => s
  | None => "None"
  end.

(** The lines the script prints, in order. *)
Definition script (dotenv environ : gmap string string) : list string :=
  let environ := load_dotenv dotenv environ in
  let openai_key := getenv environ "OPENAI_API_KEY" in
  let anthropic_key := getenv environ "ANTHROPIC_API_KEY" in
  let gemini_key := getenv environ "GEMINI_API_KEY" in
  [ if truthy openai_key then "✓ OPENAI_API_KEY is set"
    else "✗ OPENAI_API_KEY is NOT set";
    if truthy anthropic_key
    then "✓ ANTHROPIC_API_KEY is set: " +:+ format_value anthropic_key
    else "✗ ANTHROPIC_API_KEY is NOT set";
    if truthy gemini_key then "✓ GEMINI_API_KEY is set"
    else "✗ GEMINI_API_KEY is NOT set" ].

(** The keys whose lines the script prints, in order. *)
Definition checked_keys : list string :=
  ["OPENAI_API_KEY"; "ANTHROPIC_API_KEY"; "GEMINI_API_KEY"].

End TestEnvVars.

(* ===================================================================== *)
(** ** The decorators as a family *)
(* ===================================================================== *)

Module Decorators.
Import Py Tenacity RetryConfig.

(** The retry decorators [shared/retry_config.py] offers: the three presets
    and whatever [with_retry] builds. *)
Definition decorator (r : Retrying) : Prop :=
  r ∈ presets ∨
  ∃ max_attempts min_wait max_wait multiplier : Z,
    r = with_retry max_attempts min_wait max_wait multiplier.

(** The attempt ceiling in effect: [stop_after_attempt(n)] with [n] below 1
    still lets the first attempt happen. *)
Definition ceiling (r : Retrying) : nat :=
  Z.to_nat (Z.max 1 (max_attempt_number (stop r))).



(** The longest a run can sleep in total: the whole backoff schedule. *)
Definition worst_case_sleep (r : Retrying) : Z :=
  sumZ (backoffs (wait r) 1 (ceiling r - 1)).

End Decorators.

(* ===================================================================== *)
(** ** Seconds as tenacity stores them, and [time.sleep] *)
(* ===================================================================== *)

Module Sleeping.
Import Py Tenacity.

(** [_utils.to_seconds], that is [float(n)] for a Python integer [n]: the
    nearest double, a tie going to the even significand.  A double has 53
    significant bits, so [e] low bits of a longer integer are rounded
    away.  (An integer of magnitude 2^1024 or more has no double; [float]
    raises there and no decorator is built.) *)
Definition to_seconds (n : Z) : Z :=
  let a := Z.abs n in
  let e := Z.log2 a - 52 in
  if e <=? 0 then n
  else
    let q := a / 2 ^ e in
    let r := a mod 2 ^ e in
    let half := 2 ^ (e - 1) in
    let q' := if (half <? r) || ((r =? half) && Z.odd q) then q + 1 else q in
    Z.sgn n * (q' * 2 ^ e).

(** [wait_exponential.__init__] keeps [to_seconds(min)] and
    [to_seconds(max)]; the multiplier and the base are kept as passed. *)
Definition stored_wait (w : wait_exponential) : wait_exponential :=
  {| multiplier := multiplier w;
     wait_min := to_seconds (wait_min w);
     wait_max := to_seconds (wait_max w);
     exp_base := exp_base w |}.

(** The policy as it exists after [retry(...)] has built it. *)
Definition stored (r : Retrying) : Retrying :=
  {| stop := stop r;
     wait := stored_wait (wait r);
     retry := retry r;
     reraise := reraise r |}.

(** [time.sleep] keeps the duration as a signed 64-bit count of
    nanoseconds (CPython on a 64-bit platform): this is the largest whole
    number of seconds it accepts. *)
Definition sleep_limit : Z := 9223372036.

Definition OverflowError : ExcClass :=
  Subclass "OverflowError" (Subclass "ArithmeticError" Exception).

(** [time.sleep(secs)] for a wait, which is never negative: it returns, or
    raises [OverflowError] without sleeping. *)
Definition time_sleep (secs : Z) : option Exc :=
  if secs <=? sleep_limit then None
  else Some (mkExc OverflowError "timestamp too large to convert to C _PyTime_t").

Section Call.

Context {A : Type}.

(** The loop of [Retrying.__call__] with [self.sleep = time.sleep]: an
    exception of the sleep leaves the loop and reaches the caller.  The
    warning of [before_sleep] has been logged by then. *)
Fixpoint loop_sleeping (fuel : nat) (r : Retrying) (fn : nat → Outcome A)
    (st : RetryCallState A) (tr : Trace) : option (Result A * Trace) :=
  match fuel with
  | O => None
  | S fuel' =>
      match iter r st with
      | (DoAttempt, st') =>
          loop_sleeping fuel' r fn (set_outcome st' (fn (calls tr)))
            {| calls := S (calls tr);
               sleeps := sleeps tr;
               warnings := warnings tr |}
      | (DoSleep s, st') =>
          match time_sleep s with
          | Some e =>
              Some (Raise e,
                    {| calls := calls tr;
                       sleeps := sleeps tr;
                       warnings := S (warnings tr) |})
          | None =>
              loop_sleeping fuel' r fn (prepare_for_next_attempt st')
                {| calls := calls tr;
                   sleeps := sleeps tr ++ [s];
                   warnings := S (warnings tr) |}
          end
      | (Finish res, _) => Some (res, tr)
      end
  end.

(** Calling the wrapped function: the policy with its stored seconds, and
    sleeps that can fail. *)
Definition call_sleeping (r : Retrying) (fn : nat → Outcome A)
    : option (Result A * Trace) :=
  loop_sleeping (enough_fuel r) (stored r) fn initial_state empty_trace.

End Call.

(** Whole seconds that a double holds exactly and [time.sleep] accepts. *)
Definition seconds_in_range (x : Z) : Prop := - 2 ^ 53 ≤ x ≤ sleep_limit.

(** A policy whose minimum and maximum wait are such seconds. *)
Definition plain_waits (r : Retrying) : Prop :=
  seconds_in_range (wait_min (wait r)) ∧ seconds_in_range (wait_max (wait r)).

End Sleeping.

(* ===================================================================== *)
(** ** The imports of [day_one/main.py] *)
(* ===================================================================== *)

Module Main.
Import Py RetryConfig.

(** The import system: [first_import name] is what executing module [name]
    for the first time does in this installation; a module that has been
    imported is in [sys.modules] and is not executed again.  Modules that a
    successful import loads along the way are not tracked. *)
Definition import_module (first_import : string → ImportOutcome)
    (sys_modules : gset string) (name : string) : ImportOutcome * gset string :=
  if decide (name ∈ sys_modules) then (Imported, sys_modules)
  else match first_import name with
       | Imported => (Imported, {[ name ]} ∪ sys_modules)
       | ImportRaised e => (ImportRaised e, sys_modules)
       end.

(** Several imports in a row; the first exception ends the sequence. *)
Fixpoint import_all (first_import : string → ImportOutcome)
    (sys_modules : gset string) (names : list string) : Exc + gset string :=
  match names with
  | [] => inr sys_modules
  | name :: names' =>
      match import_module first_import sys_modules name with
      | (Imported, sys_modules') => import_all first_import sys_modules' names'
      | (ImportRaised e, _) => inl e
      end
  end.

(** Executing [shared/retry_config.py]: the import of tenacity at its top
    is not guarded, the import of [google.genai] is. *)
Definition import_retry_config (first_import : string → ImportOutcome)
    (sys_modules : gset string) : Exc + Bindings :=
  match import_module first_import sys_modules "tenacity" with
  | (ImportRaised e, _) => inl e
  | (Imported, sys_modules') =>
      load_module (fst (import_module first_import sys_modules' "google.genai"))
  end.

(** Lines 1 to 18 of [main.py] and the argument [retry_options] of the
    [Gemini(...)] call at line 29: the third-party imports in source order
    (the standard-library imports are left out: they cannot fail), then
    [from shared.retry_config import conservative_retry_options].  The
    result is the exception that ends the script, or the value passed as
    [retry_options]. *)
Definition main_retry_options (first_import : string → ImportOutcome)
    : Exc + option GenaiTypes.HttpRetryOptions :=
  match import_all first_import ∅
          ["dotenv"; "google.adk.agents"; "google.adk.models.google_llm";
           "google.adk.runners"; "google.adk.tools"; "google.genai"] with
  | inl e => inl e
  | inr sys_modules =>
      match import_retry_config first_import sys_modules with
      | inl e => inl e
      | inr b => inr (conservative_retry_options b)
      end
  end.

(** An installation in which every import succeeds, and one without the
    provider library. *)
Definition everything_installed : string → ImportOutcome := λ _, Imported.

Definition without_genai : string → ImportOutcome :=
  λ name, if decide (name = "google.genai")
          then ImportRaised (mkExc ModuleNotFoundError "No module named 'google.genai'")
          else Imported.

End Main.

(* ===================================================================== *)
(** ** Facts about the retry loop *)
(* ===================================================================== *)

Module TenacityFacts.
Import Py Tenacity.

Section Loop.

Context {A : Type}.
Implicit Types (r : Retrying) (fn : nat → Outcome A).
Implicit Types (st : RetryCallState A) (tr : Trace).

Lemma wait_call_backoff (w : wait_exponential) st :
  wait_call w st = backoff w (attempt_number st).
Proof. reflexivity. Qed.

(** One attempt is two turns of the loop: the call, then the decision. *)
Lemma loop_attempt fuel r fn st tr :
  outcome st = None →
  loop (S (S fuel)) r fn st tr =
    let o := fn (calls tr) in
    let w := backoff (wait r) (attempt_number st) in
    if negb (retry_requested r o) then
      Some (fut_result o,
            {| calls := S (calls tr); sleeps := sleeps tr; warnings := warnings tr |})
    else if max_attempt_number (stop r) <=? attempt_number st then
      Some (raise_retry_error r o,
            {| calls := S (calls tr); sleeps := sleeps tr; warnings := warnings tr |})
    else
      loop fuel r fn
        {| attempt_number := attempt_number st + 1;
           outcome := None;
           idle_for := idle_for st + w |}
        {| calls := S (calls tr);
           sleeps := sleeps tr ++ [w];
           warnings := S (warnings tr) |}.
Proof.
  intros Hnone. cbn [loop]. unfold iter at 1. rewrite Hnone.
  unfold iter, retry_requested, stop_call. cbn.
  destruct (fn (calls tr)) as [v|e]; cbn.
  - reflexivity.
  - destruct (_ || _); cbn; [|reflexivity].
    destruct (_ <=? _); reflexivity.
Qed.

Lemma backoffs_S (w : wait_exponential) (n : Z) (d : nat) :
  backoffs w n (S d) = backoff w n :: backoffs w (n + 1) d.
Proof.
  unfold backoffs. rewrite seqZ_cons by lia. cbn [fmap list_fmap].
  do 3 f_equal; lia.
Qed.

Lemma length_backoffs (w : wait_exponential) (n : Z) (d : nat) :
  length (backoffs w n d) = d.
Proof. unfold backoffs. rewrite length_fmap, length_seqZ. lia. Qed.

Lemma lookup_backoffs (w : wait_exponential) (n : Z) (d i : nat) :
  (i < d)%nat → backoffs w n d !! i = Some (backoff w (n + Z.of_nat i)).
Proof.
  intros Hi. unfold backoffs. rewrite list_lookup_fmap.
  rewrite lookup_seqZ_lt by lia. reflexivity.
Qed.

(** [d] attempts that all ask for a retry, none of them the last one
    allowed, take the loop [d] attempts further. *)
Lemma loop_fast_forward r fn (d : nat) : ∀ fuel st tr,
  outcome st = None →
  (∀ i, (i < d)%nat → retry_requested r (fn (calls tr + i)%nat) = true) →
  attempt_number st + Z.of_nat d ≤ max_attempt_number (stop r) →
  loop (2 * d + fuel) r fn st tr =
  loop fuel r fn
    {| attempt_number := attempt_number st + Z.of_nat d;
       outcome := None;
       idle_for := idle_for st + sumZ (backoffs (wait r) (attempt_number st) d) |}
    {| calls := calls tr + d;
       sleeps := sleeps tr ++ backoffs (wait r) (attempt_number st) d;
       warnings := warnings tr + d |}.
Proof.
  induction d as [|d IH]; intros fuel st tr Hnone Hfail Hle.
  - destruct st as [n o idle], tr as [c sl wn]. cbn in *. subst o.
    rewrite app_nil_r, !Nat.add_0_r, !Z.add_0_r. reflexivity.
  - replace (2 * S d + fuel)%nat with (S (S (2 * d + fuel))) by lia.
    rewrite loop_attempt by assumption. cbv zeta.
    pose proof (Hfail 0%nat ltac:(lia)) as H0. rewrite Nat.add_0_r in H0.
    rewrite H0. cbn [negb].
    destruct (Z.leb_spec (max_attempt_number (stop r)) (attempt_number st)) as [Hstop|_];
      [lia|].
    rewrite IH; cbn [outcome attempt_number calls sleeps warnings idle_for].
    + rewrite backoffs_S. cbn [sumZ foldr]. fold (sumZ (backoffs (wait r) (attempt_number st + 1) d)).
      f_equal.
      * f_equal; lia.
      * f_equal; [lia| |lia]. rewrite <- app_assoc. reflexivity.
    + reflexivity.
    + intros i Hi. replace (S (calls tr) + i)%nat with (calls tr + S i)%nat by lia.
      apply Hfail. lia.
    + lia.
Qed.

(** A run only appends to the trace it starts from. *)
Lemma loop_trace_extends r fn : ∀ fuel st tr res tr',
  loop fuel r fn st tr = Some (res, tr') →
  (calls tr ≤ calls tr')%nat ∧ ∃ more, sleeps tr' = sleeps tr ++ more.
Proof.
  induction fuel as [|fuel IH]; intros st tr res tr' Hrun; [discriminate|].
  cbn [loop] in Hrun. destruct (iter r st) as [[| s | res0] st'].
  - apply IH in Hrun as [Hc [more Hs]]. cbn in *. split; [lia|eauto].
  - apply IH in Hrun as [Hc [more Hs]]. cbn in *. split; [lia|].
    exists (s :: more). rewrite Hs, <- app_assoc. reflexivity.
  - injection Hrun as <- <-. split; [lia|]. exists []. by rewrite app_nil_r.
Qed.

(** The loop ends: with two turns for each attempt that is still allowed,
    it returns a result whatever the operation does. *)
Lemma loop_total r fn (k : nat) : ∀ fuel st tr,
  outcome st = None →
  Z.to_nat (max_attempt_number (stop r) - attempt_number st) = k →
  (2 * (k + 1) ≤ fuel)%nat →
  is_Some (loop fuel r fn st tr).
Proof.
  induction k as [|k IH]; intros fuel st tr Hnone Hk Hfuel.
  - destruct fuel as [|[|fuel]]; [lia|lia|].
    rewrite loop_attempt by assumption. cbv zeta.
    destruct (negb _); [eauto|].
    destruct (Z.leb_spec (max_attempt_number (stop r)) (attempt_number st)); [eauto|lia].
  - destruct fuel as [|[|fuel]]; [lia|lia|].
    rewrite loop_attempt by assumption. cbv zeta.
    destruct (negb _); [eauto|].
    destruct (Z.leb_spec (max_attempt_number (stop r)) (attempt_number st)); [eauto|].
    apply IH; cbn; [reflexivity|lia|lia].
Qed.

Lemma call_total r fn : is_Some (call r fn).
Proof.
  unfold call.
  apply (loop_total r fn (Z.to_nat (max_attempt_number (stop r) - 1)));
    [reflexivity|reflexivity|].
  unfold enough_fuel. lia.
Qed.

(** A run that starts before an attempt invokes the operation. *)
Lemma loop_invokes r fn fuel st tr res tr' :
  outcome st = None →
  loop fuel r fn st tr = Some (res, tr') →
  (calls tr < calls tr')%nat.
Proof.
  intros Hnone Hrun. destruct fuel as [|[|fuel]].
  - discriminate.
  - cbn in Hrun. unfold iter in Hrun. rewrite Hnone in Hrun. discriminate.
  - rewrite loop_attempt in Hrun by assumption. cbv zeta in Hrun.
    destruct (negb _).
    { injection Hrun as <- <-. cbn. lia. }
    destruct (_ <=? _).
    { injection Hrun as <- <-. cbn. lia. }
    apply loop_trace_extends in Hrun as [Hc _]. cbn in Hc. lia.
Qed.

Lemma enough_fuel_split r (d : nat) :
  1 + Z.of_nat d ≤ max_attempt_number (stop r) →
  ∃ fuel, enough_fuel r = (2 * d + fuel)%nat ∧ (3 ≤ fuel)%nat.
Proof.
  intros Hd. exists (enough_fuel r - 2 * d)%nat. unfold enough_fuel. lia.
Qed.

(** If the first [d] invocations ask for a retry and [d] is below the
    attempt ceiling, the run sleeps after each of them for the backoff of
    that attempt, and invokes the operation once more. *)
Lemma call_retries_prefix r fn (d : nat) :
  (∀ i, (i < d)%nat → retry_requested r (fn i) = true) →
  1 + Z.of_nat d ≤ max_attempt_number (stop r) →
  ∃ res tr, call r fn = Some (res, tr) ∧
    (d < calls tr)%nat ∧
    ∃ more, sleeps tr = backoffs (wait r) 1 d ++ more.
Proof.
  intros Hfail Hd.
  destruct (call_total r fn) as [[res tr] Hrun].
  exists res, tr. split; [assumption|].
  unfold call in Hrun.
  destruct (enough_fuel_split r d Hd) as (fuel & Hsplit & _).
  rewrite Hsplit in Hrun.
  rewrite loop_fast_forward in Hrun; [|reflexivity|exact Hfail|exact Hd].
  split.
  - apply loop_invokes in Hrun; [|reflexivity]. cbn in Hrun. lia.
  - apply loop_trace_extends in Hrun as [_ [more Hs]]. cbn in Hs. eauto.
Qed.

(** If every invocation asks for a retry, the operation is invoked as
    often as the ceiling allows (once for a ceiling below 1), with the
    backoff sleeps in between, and the run ends in the outcome of the
    last invocation. *)
Lemma call_exhausted r fn :
  (∀ i, retry_requested r (fn i) = true) →
  let n := Z.to_nat (Z.max 1 (max_attempt_number (stop r))) in
  call r fn =
    Some (raise_retry_error r (fn (n - 1)%nat),
          {| calls := n;
             sleeps := backoffs (wait r) 1 (n - 1);
             warnings := (n - 1)%nat |}).
Proof.
  intros Hfail n.
  assert (Hlast : ∀ fuel st tr,
    outcome st = None →
    max_attempt_number (stop r) ≤ attempt_number st →
    loop (S (S fuel)) r fn st tr =
      Some (raise_retry_error r (fn (calls tr)),
            {| calls := S (calls tr); sleeps := sleeps tr; warnings := warnings tr |})).
  { intros fuel st tr Hnone Hstop. rewrite loop_attempt by assumption. cbv zeta.
    rewrite Hfail. cbn [negb].
    destruct (Z.leb_spec (max_attempt_number (stop r)) (attempt_number st)); [reflexivity|lia]. }
  destruct (Z.le_gt_cases (max_attempt_number (stop r)) 1) as [Hle|Hgt].
  - assert (n = 1%nat) as -> by (unfold n; lia).
    unfold call, enough_fuel.
    replace (S (2 * Z.to_nat (Z.max 1 (max_attempt_number (stop r))))) with 3%nat by lia.
    rewrite Hlast; [reflexivity|reflexivity|exact Hle].
  - unfold call.
    destruct (enough_fuel_split r (n - 1)) as (fuel & Hsplit & Hfuel); [unfold n; lia|].
    rewrite Hsplit.
    rewrite loop_fast_forward;
      [|reflexivity|intros; apply Hfail|cbn; unfold n; lia].
    destruct fuel as [|[|fuel]]; [lia|lia|].
    rewrite Hlast; [|reflexivity|cbn; unfold n; lia].
    cbn. do 3 f_equal. unfold n. lia.
Qed.

Lemma enough_fuel_two r : ∃ fuel, enough_fuel r = S (S fuel).
Proof. exists (enough_fuel r - 2)%nat. unfold enough_fuel. lia. Qed.

(** An outcome that asks for no retry ends the run at once. *)
Lemma call_not_requested r fn :
  retry_requested r (fn 0%nat) = false →
  call r fn =
    Some (fut_result (fn 0%nat), {| calls := 1; sleeps := []; warnings := 0 |}).
Proof.
  intros Hno. unfold call. destruct (enough_fuel_two r) as [fuel Hfuel].
  rewrite Hfuel, loop_attempt by reflexivity. cbv zeta. cbn [calls empty_trace].
  rewrite Hno. reflexivity.
Qed.

(** With a ceiling of one attempt (or less) the run is one invocation. *)
Lemma call_single_attempt r fn :
  max_attempt_number (stop r) ≤ 1 →
  call r fn =
    Some (if retry_requested r (fn 0%nat)
          then raise_retry_error r (fn 0%nat) else fut_result (fn 0%nat),
          {| calls := 1; sleeps := []; warnings := 0 |}).
Proof.
  intros Hone. unfold call. destruct (enough_fuel_two r) as [fuel Hfuel].
  rewrite Hfuel, loop_attempt by reflexivity. cbv zeta.
  cbn [calls sleeps warnings empty_trace attempt_number initial_state].
  destruct (retry_requested r (fn 0%nat)); cbn [negb]; [|reflexivity].
  destruct (Z.leb_spec (max_attempt_number (stop r)) 1); [reflexivity|lia].
Qed.


End Loop.

End TenacityFacts.

(* ===================================================================== *)
(** ** Stored seconds and failing sleeps *)
(* ===================================================================== *)

Module SleepingFacts.
Import Py Tenacity TenacityFacts Sleeping.





Section Agreement.

Context {A : Type}.




End Agreement.

(** Out of range the two differ.  A maximum wait of 2^53 + 1 is stored as
    2^53, and that is the wait the policy asks for; a minimum wait of
    2^53 + 3 is stored as 2^53 + 4. *)
Example stored_seconds_are_rounded :
  backoff (wait (RetryConfig.with_retry 2 1 (2 ^ 53 + 1) (2 ^ 60))) 1 = 2 ^ 53 + 1 ∧
  backoff (wait (stored (RetryConfig.with_retry 2 1 (2 ^ 53 + 1) (2 ^ 60)))) 1 = 2 ^ 53 ∧
  backoff (wait (stored (RetryConfig.with_retry 2 (2 ^ 53 + 3) (2 ^ 60) 1))) 1 = 2 ^ 53 + 4.
Proof. repeat split; vm_compute; reflexivity. Qed.

(** A wait of 10^10 seconds is refused by [time.sleep]: the run ends after
    one invocation and one warning, with the [OverflowError]. *)
Example long_wait_is_refused :
  call_sleeping (RetryConfig.with_retry 3 1 (10 ^ 10) (10 ^ 10)) RetryConfig.rate_limited
    = Some (Raise (mkExc OverflowError "timestamp too large to convert to C _PyTime_t"),
            {| calls := 1; sleeps := []; warnings := 1 |}).
Proof. vm_compute. reflexivity. Qed.

(** The three presets are in range. *)
Lemma presets_plain (p : Retrying) : p ∈ RetryConfig.presets → plain_waits p.
Proof.
  unfold RetryConfig.presets. rewrite !elem_of_cons.
  intros [-> | [-> | [-> | Hnil]]]; [| | |inversion Hnil];
    unfold plain_waits, seconds_in_range, sleep_limit; cbn; lia.
Qed.

End SleepingFacts.

(* ===================================================================== *)
(** ** The retry decorators of [shared/retry_config.py] *)
(* ===================================================================== *)

Module RetryConfigSpec.
Import Py Tenacity TenacityFacts RetryConfig.

Lemma keeps_raising_requested {A : Type} (r : Retrying) (fn : nat → Outcome A) :
  keeps_raising (retryable_error_kinds r) fn →
  ∀ i, retry_requested r (fn i) = true.
Proof.
  intros Hfn i. destruct (Hfn i) as (e & -> & He).
  unfold retry_requested, retry_call. fold (retryable_error_kinds r).
  rewrite He. apply orb_true_r.
Qed.

Lemma raises_first_requested {A : Type} (r : Retrying) (fn : nat → Outcome A) d :
  raises_first d (retryable_error_kinds r) fn →
  ∀ i, (i < d)%nat → retry_requested r (fn i) = true.
Proof.
  intros Hfn i Hi. destruct (Hfn i Hi) as (e & -> & He).
  unfold retry_requested, retry_call. fold (retryable_error_kinds r).
  rewrite He. apply orb_true_r.
Qed.

(** An instance of a listed kind is an instance of every longer list. *)
Lemma isinstance_weaken (e : Exc) (types types' : list ExcClass) :
  types ⊆ types' → isinstance e types = true → isinstance e types' = true.
Proof.
  unfold isinstance. rewrite !existsb_exists. intros Hsub (c & Hc & Hi).
  exists c. split; [|assumption].
  apply list_elem_of_In, Hsub, list_elem_of_In, Hc.
Qed.




(** C3 (as amended).  Under the standard preset the wait after attempt [k]
    is [2^(k-1)] seconds (1, 2, 4, 8): it doubles from each attempt to the
    next, in every run whose first [d] attempts fail with a retryable
    error, for [k <= d <= 4]. *)
Theorem api_retry_wait_doubles {A : Type} (fn : nat → Outcome A) (d : nat) :
  (d ≤ 4)%nat →
  raises_first d (retryable_error_kinds api_retry) fn →
  ∃ res tr,
    call api_retry fn = Some (res, tr) ∧
    (d < calls tr)%nat ∧
    ∀ k : nat, (1 ≤ k ≤ d)%nat →
      sleeps tr !! (k - 1)%nat = Some (2 ^ (Z.of_nat k - 1)).
Proof.
  intros Hd Hfn.
  destruct (call_retries_prefix api_retry fn d) as (res & tr & Hrun & Hcalls & more & Hs).
  { apply raises_first_requested, Hfn. }
  { cbn. lia. }
  exists res, tr. split; [exact Hrun|]. split; [exact Hcalls|].
  intros k Hk. rewrite Hs, lookup_app_l by (rewrite length_backoffs; lia).
  rewrite lookup_backoffs by lia. f_equal.
  replace (1 + Z.of_nat (k - 1)) with (Z.of_nat k) by lia.
  destruct k as [|[|[|[|[|k]]]]]; try lia; reflexivity.
Qed.

Lemma api_retry_wait_doubles_witness :
  (3 ≤ 4)%nat ∧
  raises_first 3 (retryable_error_kinds api_retry) rate_limited ∧
  ∃ res tr,
    call api_retry rate_limited = Some (res, tr) ∧
    (3 < calls tr)%nat ∧
    ∀ k : nat, (1 ≤ k ≤ 3)%nat →
      sleeps tr !! (k - 1)%nat = Some (2 ^ (Z.of_nat k - 1)).
Proof.
  assert (H : raises_first 3 (retryable_error_kinds api_retry) rate_limited).
  { intros i _. eexists. split; reflexivity. }
  split; [lia|]. split; [exact H|].
  apply (api_retry_wait_doubles rate_limited 3); [lia|exact H].
Defined.

(** C3 (as stated) fails.  Under the standard preset an operation that is
    rate limited every time is followed by sleeps of 1, 2, 4 and 8 seconds:
    the first two waits already differ. *)
Lemma api_retry_wait_is_not_constant :
  ¬ (∀ fn : nat → Outcome unit,
       raises_first 3 (retryable_error_kinds api_retry) fn →
       ∀ res tr, call api_retry fn = Some (res, tr) →
       ∀ (i j : nat) (wi wj : Z),
         sleeps tr !! i = Some wi → sleeps tr !! j = Some wj → wi = wj).
Proof.
  intros Hclaim.
  assert (H : raises_first 3 (retryable_error_kinds api_retry) rate_limited).
  { intros i _. eexists. split; reflexivity. }
  specialize (Hclaim rate_limited H _ _ eq_refl 0%nat 1%nat 1 2 eq_refl eq_refl).
  discriminate.
Qed.

(** C4.  Under the conservative preset an operation that raises
    [APITimeoutError] on every invocation is invoked exactly 3 times, and
    the caller receives the exception object of the third invocation
    itself, an [APITimeoutError], not a [RetryError] around it. *)
Theorem conservative_retry_exhausts_then_reraises {A : Type} (fn : nat → Outcome A) :
  keeps_raising [APITimeoutError] fn →
  ∃ e tr,
    fn 2%nat = Failed e ∧
    isinstance e [APITimeoutError] = true ∧
    call conservative_retry fn = Some (Raise e, tr) ∧
    calls tr = 3%nat.
Proof.
  intros Hfn.
  assert (Hfn' : keeps_raising (retryable_error_kinds conservative_retry) fn).
  { intros i. destruct (Hfn i) as (e & He & Hi). exists e. split; [exact He|].
    eapply isinstance_weaken; [|exact Hi].
    intros c Hc. apply list_elem_of_singleton in Hc as ->.
    unfold retryable_error_kinds. cbn. repeat constructor. }
  pose proof (call_exhausted conservative_retry fn
                (keeps_raising_requested _ fn Hfn')) as Hrun.
  cbv zeta in Hrun. cbn [stop conservative_retry max_attempt_number] in Hrun.
  change (Z.to_nat (Z.max 1 3)) with 3%nat in Hrun.
  destruct (Hfn 2%nat) as (e & He & Hi).
  change (3 - 1)%nat with 2%nat in Hrun. rewrite He in Hrun.
  exists e. eexists. split; [exact He|]. split; [exact Hi|].
  split; [exact Hrun|reflexivity].
Qed.

Lemma conservative_retry_exhausts_then_reraises_witness :
  keeps_raising [APITimeoutError] api_timed_out ∧
  ∃ e tr,
    api_timed_out 2%nat = Failed e ∧
    isinstance e [APITimeoutError] = true ∧
    call conservative_retry api_timed_out = Some (Raise e, tr) ∧
    calls tr = 3%nat.
Proof.
  assert (H : keeps_raising [APITimeoutError] api_timed_out).
  { intros i. eexists. split; reflexivity. }
  split; [exact H|].
  exact (conservative_retry_exhausts_then_reraises api_timed_out H).
Defined.

(** C5 (as amended).  Under the aggressive preset, an operation whose
    first invocation raises an error that is neither of a retryable kind
    nor tenacity's [TryAgain] is invoked exactly once, without any sleep,
    and that error reaches the caller. *)
Theorem aggressive_retry_propagates_other_errors {A : Type}
    (fn : nat → Outcome A) (e : Exc) :
  fn 0%nat = Failed e →
  isinstance e (retryable_error_kinds aggressive_retry) = false →
  isinstance e [TryAgain] = false →
  call aggressive_retry fn =
    Some (Raise e, {| calls := 1; sleeps := []; warnings := 0 |}).
Proof.
  intros He Hkind Hagain.
  rewrite call_not_requested; rewrite He; [reflexivity|].
  unfold retry_requested, retry_call. fold (retryable_error_kinds aggressive_retry).
  rewrite Hkind. unfold isinstance in Hagain. cbn [existsb] in Hagain.
  rewrite orb_false_r in Hagain. rewrite Hagain. reflexivity.
Qed.

Lemma aggressive_retry_propagates_other_errors_witness :
  bad_request 0%nat = Failed (mkExc ValueError "400 Bad Request") ∧
  isinstance (mkExc ValueError "400 Bad Request")
    (retryable_error_kinds aggressive_retry) = false ∧
  isinstance (mkExc ValueError "400 Bad Request") [TryAgain] = false ∧
  call aggressive_retry bad_request =
    Some (Raise (mkExc ValueError "400 Bad Request"),
          {| calls := 1; sleeps := []; warnings := 0 |}).
Proof.
  split; [reflexivity|]. split; [reflexivity|]. split; [reflexivity|].
  apply (aggressive_retry_propagates_other_errors bad_request
           (mkExc ValueError "400 Bad Request"));
    reflexivity.
Defined.

(** C5 (as stated) fails.  [TryAgain] is not among the retryable kinds of
    the aggressive preset, yet an operation that raises it on the first
    invocation is invoked a second time, after a sleep of 2 seconds. *)
Lemma aggressive_retry_retries_try_again :
  ¬ (∀ (fn : nat → Outcome unit) (e : Exc),
       fn 0%nat = Failed e →
       isinstance e (retryable_error_kinds aggressive_retry) = false →
       ∃ tr, call aggressive_retry fn = Some (Raise e, tr) ∧ calls tr = 1%nat).
Proof.
  intros Hclaim.
  destruct (Hclaim tries_again_once (mkExc TryAgain "") eq_refl eq_refl)
    as (tr & Hrun & _).
  vm_compute in Hrun. discriminate.
Qed.

(** C6.  A decorator built by [with_retry(max_attempts=1, ...)] invokes
    the operation exactly once and never sleeps, whatever the operation
    returns or raises; the caller receives that value or that error. *)
Theorem with_retry_one_attempt_never_retries {A : Type}
    (min_wait max_wait multiplier : Z) (fn : nat → Outcome A) :
  call (with_retry 1 min_wait max_wait multiplier) fn =
    Some (fut_result (fn 0%nat), {| calls := 1; sleeps := []; warnings := 0 |}).
Proof.
  rewrite call_single_attempt by (cbn; lia).
  destruct (fn 0%nat) as [v|e]; [reflexivity|].
  destruct (retry_requested _ _); reflexivity.
Qed.

(** C2 (as amended).  Under the standard and the aggressive preset an
    operation whose first invocation raises [ConnectionError] or
    [TimeoutError] is invoked again: both kinds are retryable there.  Under
    the conservative preset neither kind is retryable and the error
    reaches the caller after the first invocation. *)
Theorem presets_on_ambient_errors {A : Type}
    (p : Retrying) (fn : nat → Outcome A) (e : Exc) :
  p ∈ presets →
  fn 0%nat = Failed e →
  exc_type e ∈ [ConnectionError; TimeoutError] →
  (p ≠ conservative_retry →
     exc_type e ∈ retryable_error_kinds p ∧
     ∃ res tr, call p fn = Some (res, tr) ∧ (2 ≤ calls tr)%nat) ∧
  (p = conservative_retry →
     (exc_type e ∉ retryable_error_kinds p) ∧
     call p fn = Some (Raise e, {| calls := 1; sleeps := []; warnings := 0 |})).
Proof.
  intros Hp He Hkind.
  assert (Hcases : exc_type e = ConnectionError ∨ exc_type e = TimeoutError).
  { rewrite !elem_of_cons in Hkind. destruct Hkind as [?|[?|Hnil]]; auto.
    inversion Hnil. }
  assert (Hretried : ∀ q, q = api_retry ∨ q = aggressive_retry →
    exc_type e ∈ retryable_error_kinds q ∧
    ∃ res tr, call q fn = Some (res, tr) ∧ (2 ≤ calls tr)%nat).
  { intros q Hq. split.
    - destruct Hq as [-> | ->], Hcases as [-> | ->]; cbn; repeat constructor.
    - destruct (call_retries_prefix q fn 1) as (res & tr & Hrun & Hcalls & _).
      + intros i Hi. assert (i = 0%nat) as -> by lia. rewrite He.
        unfold retry_requested, retry_call, isinstance.
        destruct Hq as [-> | ->], Hcases as [-> | ->]; apply orb_true_r.
      + destruct Hq as [-> | ->]; cbn; lia.
      + exists res, tr. split; [exact Hrun|lia]. }
  unfold presets in Hp. rewrite !elem_of_cons in Hp.
  destruct Hp as [-> | [-> | [-> | Hnil]]]; [| | |inversion Hnil].
  - split; [intros _; apply Hretried; auto|discriminate].
  - split; [intros _; apply Hretried; auto|discriminate].
  - split; [congruence|intros _]. split.
    + destruct Hcases as [-> | ->]; cbn; intros Hin;
        rewrite !elem_of_cons in Hin; destruct Hin as [?|[?|[?|Hnil]]];
        try discriminate; inversion Hnil.
    + rewrite call_not_requested; rewrite He; [reflexivity|].
      destruct e as [c msg]. cbn in Hcases.
      destruct Hcases as [-> | ->]; reflexivity.
Qed.

Lemma presets_on_ambient_errors_witness :
  (ConnectionError ∈ retryable_error_kinds api_retry ∧
   ∃ res tr, call api_retry connection_refused = Some (res, tr) ∧ (2 ≤ calls tr)%nat) ∧
  ((ConnectionError ∉ retryable_error_kinds conservative_retry) ∧
   call conservative_retry connection_refused =
     Some (Raise (mkExc ConnectionError "connection refused"),
           {| calls := 1; sleeps := []; warnings := 0 |})).
Proof.
  assert (Hk : ConnectionError ∈ [ConnectionError; TimeoutError]) by repeat constructor.
  split.
  - apply (proj1 (presets_on_ambient_errors api_retry connection_refused
                    (mkExc ConnectionError "connection refused")
                    ltac:(unfold presets; repeat constructor) eq_refl Hk)).
    discriminate.
  - apply (proj2 (presets_on_ambient_errors conservative_retry connection_refused
                    (mkExc ConnectionError "connection refused")
                    ltac:(unfold presets; repeat constructor) eq_refl Hk)).
    reflexivity.
Defined.

(** C2 (as stated) fails.  [ConnectionError] is not among the retryable
    kinds of the conservative preset, and an operation that raises it is
    invoked only once there. *)
Lemma conservative_retry_omits_ambient_errors :
  ¬ (∀ p, p ∈ presets →
       ∀ kind, kind ∈ [ConnectionError; TimeoutError] →
         kind ∈ retryable_error_kinds p ∧
         ∀ (fn : nat → Outcome unit) (e : Exc),
           fn 0%nat = Failed e → exc_type e = kind →
           ∃ res tr, call p fn = Some (res, tr) ∧ (2 ≤ calls tr)%nat).
Proof.
  intros Hclaim.
  assert (Hp : conservative_retry ∈ presets) by (unfold presets; repeat constructor).
  assert (Hk : ConnectionError ∈ [ConnectionError; TimeoutError]) by repeat constructor.
  destruct (Hclaim conservative_retry Hp ConnectionError Hk) as [_ Hrun].
  destruct (Hrun connection_refused _ eq_refl eq_refl) as (res & tr & Hcall & Hcalls).
  vm_compute in Hcall. injection Hcall as _ <-. cbn in Hcalls. lia.
Qed.

(** C8.  Each of the three presets has a non-empty set of retryable error
    kinds, all taken from the five kinds of the module, a minimum wait not
    above its maximum wait, and an attempt ceiling of at least 1. *)
Theorem presets_invariants :
  Forall (λ p,
    retryable_error_kinds p ≠ [] ∧
    retryable_error_kinds p ⊆
      [RateLimitError; APIConnectionError; APITimeoutError;
       ConnectionError; TimeoutError] ∧
    wait_min (wait p) ≤ wait_max (wait p) ∧
    1 ≤ max_attempt_number (stop p)) presets.
Proof.
  unfold presets. repeat apply Forall_cons_2; [| | |apply Forall_nil_2];
    (split; [discriminate|]; split; [|cbn; lia]);
    intros c Hc; cbn in Hc; rewrite !elem_of_cons in Hc;
    rewrite !elem_of_cons; tauto.
Qed.

End RetryConfigSpec.

(* ===================================================================== *)
(** ** The provider options of [shared/retry_config.py] *)
(* ===================================================================== *)

Module ProviderOptionsSpec.
Import Py RetryConfig.

(** C7.  If importing the provider library raises [ImportError] (or a
    subclass of it, such as [ModuleNotFoundError]), the module finishes
    loading, [GOOGLE_ADK_AVAILABLE] is false and the three provider option
    names are bound to [None]. *)
Theorem provider_options_absent_without_library (e : Exc) :
  isinstance e [ImportError] = true →
  ∃ b, load_module (ImportRaised e) = inr b ∧
       GOOGLE_ADK_AVAILABLE b = false ∧
       api_retry_options b = None ∧
       aggressive_retry_options b = None ∧
       conservative_retry_options b = None.
Proof.
  intros He. unfold load_module. rewrite He.
  eexists. split; [reflexivity|]. repeat split.
Qed.

Lemma provider_options_absent_without_library_witness :
  isinstance (mkExc ModuleNotFoundError "No module named 'google'") [ImportError] = true ∧
  ∃ b, load_module (ImportRaised (mkExc ModuleNotFoundError "No module named 'google'"))
         = inr b ∧
       GOOGLE_ADK_AVAILABLE b = false ∧
       api_retry_options b = None ∧
       aggressive_retry_options b = None ∧
       conservative_retry_options b = None.
Proof.
  split; [reflexivity|].
  apply (provider_options_absent_without_library
           (mkExc ModuleNotFoundError "No module named 'google'")).
  reflexivity.
Defined.

(** C9.  When the provider library is imported, the three provider options
    exist, each with the status codes 429, 500, 503, 504 and the
    exponential base 2, and any two of them become equal once attempts and
    initial delay are made equal: they differ in nothing else. *)
Theorem provider_options_share_codes_and_base :
  ∃ b, load_module Imported = inr b ∧
    GOOGLE_ADK_AVAILABLE b = true ∧
    Forall (λ o, ∃ opts, o = Some opts ∧
              GenaiTypes.http_status_codes opts = Some [429; 500; 503; 504] ∧
              GenaiTypes.exp_base opts = Some 2) (provider_options b) ∧
    Forall (λ o, Forall (differ_only_in_attempts_and_delay o) (provider_options b))
      (provider_options b) ∧
    (λ o, o ≫= GenaiTypes.attempts) <$> provider_options b
      = [Some 5; Some 10; Some 3] ∧
    (λ o, o ≫= GenaiTypes.initial_delay) <$> provider_options b
      = [Some 1; Some 2; Some 1].
Proof.
  eexists. split; [reflexivity|]. split; [reflexivity|].
  split; [|split; [|split; reflexivity]].
  - repeat constructor; eexists; repeat split.
  - repeat constructor; eexists _, _; repeat split.
Qed.

End ProviderOptionsSpec.

(* ===================================================================== *)
(** ** What the environment check prints *)
(* ===================================================================== *)

Module TestEnvVarsSpec.
Import TestEnvVars.

(** A variable of the process environment wins over the [.env] file. *)
Lemma load_dotenv_keeps_environ (dotenv environ : gmap string string) key v :
  environ !! key = Some v → getenv (load_dotenv dotenv environ) key = Some v.
Proof. intros H. unfold getenv, load_dotenv. by apply lookup_union_Some_l. Qed.

(** A variable only the [.env] file has is read from there. *)
Lemma load_dotenv_adds_missing (dotenv environ : gmap string string) key :
  environ !! key = None →
  getenv (load_dotenv dotenv environ) key = dotenv !! key.
Proof. intros H. unfold getenv, load_dotenv. by rewrite lookup_union_r. Qed.

Lemma truthy_nonempty (s : string) : s ≠ "" → truthy (Some s) = true.
Proof. intros H. unfold truthy. by rewrite bool_decide_eq_false_2. Qed.

(** A key set to the empty string is reported as not set. *)
Lemma empty_key_is_not_set :
  script ∅ {[ "OPENAI_API_KEY" := "" ]} !! 0%nat = Some "✗ OPENAI_API_KEY is NOT set".
Proof. reflexivity. Qed.

(** C10.  Two runs whose [ANTHROPIC_API_KEY] values are non-empty and
    different print different output, the second line being the fixed
    prefix followed by the whole key; and two runs that agree on the
    [ANTHROPIC_API_KEY] and on whether [OPENAI_API_KEY] and
    [GEMINI_API_KEY] are set print the same output, whatever the values of
    these two keys. *)
Theorem env_check_reveals_only_anthropic_key
    (dotenv1 environ1 dotenv2 environ2 : gmap string string) :
  (∀ a1 a2 : string,
     getenv (load_dotenv dotenv1 environ1) "ANTHROPIC_API_KEY" = Some a1 →
     getenv (load_dotenv dotenv2 environ2) "ANTHROPIC_API_KEY" = Some a2 →
     a1 ≠ "" → a2 ≠ "" → a1 ≠ a2 →
     script dotenv1 environ1 !! 1%nat = Some ("✓ ANTHROPIC_API_KEY is set: " +:+ a1) ∧
     script dotenv1 environ1 ≠ script dotenv2 environ2) ∧
  (getenv (load_dotenv dotenv1 environ1) "ANTHROPIC_API_KEY" =
     getenv (load_dotenv dotenv2 environ2) "ANTHROPIC_API_KEY" →
   is_set (load_dotenv dotenv1 environ1) "OPENAI_API_KEY" =
     is_set (load_dotenv dotenv2 environ2) "OPENAI_API_KEY" →
   is_set (load_dotenv dotenv1 environ1) "GEMINI_API_KEY" =
     is_set (load_dotenv dotenv2 environ2) "GEMINI_API_KEY" →
   script dotenv1 environ1 = script dotenv2 environ2).
Proof.
  unfold script, is_set.
  set (env1 := load_dotenv dotenv1 environ1).
  set (env2 := load_dotenv dotenv2 environ2).
  split.
  - intros a1 a2 H1 H2 Hne1 Hne2 Hdiff. cbv zeta.
    rewrite H1, H2, !truthy_nonempty by assumption. cbn [format_value].
    split; [reflexivity|].
    intros Heq. injection Heq as _ Hline _.
    apply String.app_inj in Hline. contradiction.
  - intros Hanth Hopenai Hgemini. cbv zeta.
    rewrite Hanth, Hopenai, Hgemini. reflexivity.
Qed.

Lemma env_check_reveals_only_anthropic_key_witness :
  script ∅ {[ "ANTHROPIC_API_KEY" := "sk-ant-one" ]} !! 1%nat
    = Some "✓ ANTHROPIC_API_KEY is set: sk-ant-one" ∧
  script ∅ {[ "ANTHROPIC_API_KEY" := "sk-ant-one" ]}
    ≠ script {[ "ANTHROPIC_API_KEY" := "sk-ant-two" ]} ∅ ∧
  script ∅ {[ "OPENAI_API_KEY" := "sk-one"; "GEMINI_API_KEY" := "g-one" ]}
    = script {[ "GEMINI_API_KEY" := "g-two" ]} {[ "OPENAI_API_KEY" := "sk-two" ]}.
Proof.
  split; [|split].
  - apply (proj1 (env_check_reveals_only_anthropic_key
                    ∅ {[ "ANTHROPIC_API_KEY" := "sk-ant-one" ]}
                    {[ "ANTHROPIC_API_KEY" := "sk-ant-two" ]} ∅)
             "sk-ant-one" "sk-ant-two");
      [reflexivity|reflexivity|discriminate|discriminate|discriminate].
  - apply (proj1 (env_check_reveals_only_anthropic_key
                    ∅ {[ "ANTHROPIC_API_KEY" := "sk-ant-one" ]}
                    {[ "ANTHROPIC_API_KEY" := "sk-ant-two" ]} ∅)
             "sk-ant-one" "sk-ant-two");
      [reflexivity|reflexivity|discriminate|discriminate|discriminate].
  - apply (proj2 (env_check_reveals_only_anthropic_key
                    ∅ {[ "OPENAI_API_KEY" := "sk-one"; "GEMINI_API_KEY" := "g-one" ]}
                    {[ "GEMINI_API_KEY" := "g-two" ]} {[ "OPENAI_API_KEY" := "sk-two" ]}));
      reflexivity.
Defined.

End TestEnvVarsSpec.

(* ===================================================================== *)
(** ** The shape of every run of the retry loop *)
(* ===================================================================== *)

Module TenacityRuns.
Import Py Tenacity TenacityFacts.

Section Runs.

Context {A : Type}.
Implicit Types (r : Retrying) (fn : nat → Outcome A).
Implicit Types (st : RetryCallState A) (tr : Trace) (res : Result A).

(** A finished run from the start of an attempt made [c] sleeps: the [c]
    invocations before the last all asked for a retry below the ceiling,
    the sleeps are the backoffs of these attempts, and the last invocation
    either asked for none or hit the ceiling. *)
Lemma loop_run_shape r fn : ∀ fuel st tr res tr',
  outcome st = None →
  loop fuel r fn st tr = Some (res, tr') →
  ∃ c : nat,
    calls tr' = (calls tr + S c)%nat ∧
    sleeps tr' = sleeps tr ++ backoffs (wait r) (attempt_number st) c ∧
    warnings tr' = (warnings tr + c)%nat ∧
    (∀ i, (i < c)%nat →
       retry_requested r (fn (calls tr + i)%nat) = true ∧
       attempt_number st + Z.of_nat i < max_attempt_number (stop r)) ∧
    ((retry_requested r (fn (calls tr + c)%nat) = false ∧
      res = fut_result (fn (calls tr + c)%nat)) ∨
     (retry_requested r (fn (calls tr + c)%nat) = true ∧
      max_attempt_number (stop r) ≤ attempt_number st + Z.of_nat c ∧
      res = raise_retry_error r (fn (calls tr + c)%nat))).
Proof.
  induction fuel as [fuel IH] using lt_wf_ind.
  intros st tr res tr' Hnone Hrun.
  destruct fuel as [|[|fuel]].
  - discriminate.
  - cbn in Hrun. unfold iter in Hrun. rewrite Hnone in Hrun. discriminate.
  - rewrite loop_attempt in Hrun by assumption. cbv zeta in Hrun.
    destruct (retry_requested r (fn (calls tr))) eqn:Hreq; cbn [negb] in Hrun.
    + destruct (Z.leb_spec (max_attempt_number (stop r)) (attempt_number st))
        as [Hstop|Hgo].
      * injection Hrun as <- <-. exists 0%nat. cbn.
        rewrite !Nat.add_0_r, app_nil_r, Z.add_0_r, Hreq.
        repeat split; [lia|intros; lia|intros; lia|]. right. auto.
      * apply IH in Hrun; [|lia|reflexivity].
        destruct Hrun as (c & Hc & Hs & Hw & Hpre & Hlast).
        cbn [calls sleeps warnings attempt_number] in *.
        exists (S c). rewrite backoffs_S.
        split; [lia|]. split; [rewrite Hs, <- app_assoc; reflexivity|].
        split; [lia|]. split.
        -- intros [|i] Hi.
           ++ rewrite Nat.add_0_r, Z.add_0_r. auto.
           ++ destruct (Hpre i ltac:(lia)) as [Hr Hlt].
              replace (calls tr + S i)%nat with (S (calls tr) + i)%nat by lia.
              split; [exact Hr|lia].
        -- replace (calls tr + S c)%nat with (S (calls tr) + c)%nat by lia.
           destruct Hlast as [[Hr ->]|(Hr & Hm & ->)]; [left; auto|right].
           repeat split; [exact Hr|lia].
    + injection Hrun as <- <-. exists 0%nat. cbn.
      rewrite !Nat.add_0_r, app_nil_r, Hreq.
      repeat split; [lia|intros; lia|intros; lia|]. left. auto.
Qed.

(** The same for a call of the wrapped function. *)
Lemma call_run_shape r fn res tr :
  call r fn = Some (res, tr) →
  ∃ c : nat,
    calls tr = S c ∧
    sleeps tr = backoffs (wait r) 1 c ∧
    warnings tr = c ∧
    (∀ i, (i < c)%nat →
       retry_requested r (fn i) = true ∧
       1 + Z.of_nat i < max_attempt_number (stop r)) ∧
    ((retry_requested r (fn c) = false ∧ res = fut_result (fn c)) ∨
     (retry_requested r (fn c) = true ∧
      max_attempt_number (stop r) ≤ 1 + Z.of_nat c ∧
      res = raise_retry_error r (fn c))).
Proof.
  intros Hrun. unfold call in Hrun.
  apply loop_run_shape in Hrun; [|reflexivity].
  destruct Hrun as (c & Hc & Hs & Hw & Hpre & Hlast). exists c.
  cbn in *. auto.
Qed.


End Runs.

(** The waits lie between the lower bound and, if that is not above it,
    the upper bound. *)
Lemma backoff_lower (w : wait_exponential) (k : Z) :
  Z.max 0 (wait_min w) ≤ backoff w k.
Proof. unfold backoff. lia. Qed.


(** With a multiplier that is not negative and a base of at least 1 the
    waits do not shrink from one attempt to a later one. *)
Lemma backoff_mono (w : wait_exponential) (j k : Z) :
  0 ≤ multiplier w → 1 ≤ exp_base w → 1 ≤ j ≤ k →
  backoff w j ≤ backoff w k.
Proof.
  intros Hm Hb Hjk. unfold backoff.
  assert (exp_base w ^ (j - 1) ≤ exp_base w ^ (k - 1))
    by (apply Z.pow_le_mono_r; lia).
  assert (multiplier w * exp_base w ^ (j - 1) ≤ multiplier w * exp_base w ^ (k - 1))
    by (apply Z.mul_le_mono_nonneg_l; assumption).
  lia.
Qed.

Lemma sumZ_app (l l' : list Z) : sumZ (l ++ l') = sumZ l + sumZ l'.
Proof.
  unfold sumZ. induction l as [|x l IH]; cbn [foldr app]; [reflexivity|].
  rewrite IH. lia.
Qed.

Lemma backoffs_app (w : wait_exponential) (n : Z) (c d : nat) :
  backoffs w n (c + d) = backoffs w n c ++ backoffs w (n + Z.of_nat c) d.
Proof.
  revert n. induction c as [|c IH]; intros n.
  - cbn [Nat.add Z.of_nat]. rewrite Z.add_0_r. reflexivity.
  - change (S c + d)%nat with (S (c + d)). rewrite !backoffs_S, IH.
    cbn [app]. do 3 f_equal. lia.
Qed.

Lemma sumZ_backoffs_nonneg (w : wait_exponential) (n : Z) (c : nat) :
  0 ≤ sumZ (backoffs w n c).
Proof.
  revert n. induction c as [|c IH]; intros n; [vm_compute; discriminate|].
  rewrite backoffs_S. pose proof (backoff_lower w n).
  pose proof (IH (n + 1)). unfold sumZ in *. cbn [foldr]. lia.
Qed.

(** Fewer sleeps of the same schedule never add up to more. *)
Lemma sumZ_backoffs_mono (w : wait_exponential) (n : Z) (c d : nat) :
  (c ≤ d)%nat → sumZ (backoffs w n c) ≤ sumZ (backoffs w n d).
Proof.
  intros Hcd. replace d with (c + (d - c))%nat by lia.
  rewrite backoffs_app, sumZ_app.
  pose proof (sumZ_backoffs_nonneg w (n + Z.of_nat c) (d - c)). lia.
Qed.


End TenacityRuns.

(* ===================================================================== *)
(** ** Every run of a decorator of [shared/retry_config.py] *)
(* ===================================================================== *)

Module DecoratorRuns.
Import Py Tenacity TenacityFacts TenacityRuns RetryConfig Decorators.
Import Sleeping SleepingFacts.

Lemma preset_cases (p : Retrying) :
  p ∈ presets → p = api_retry ∨ p = aggressive_retry ∨ p = conservative_retry.
Proof.
  unfold presets. rewrite !elem_of_cons. intros [?|[?|[?|Hnil]]]; auto.
  inversion Hnil.
Qed.


Lemma decorator_exp_base (r : Retrying) : decorator r → exp_base (wait r) = 2.
Proof.
  intros [Hp | (m & lo & hi & mu & ->)]; [|reflexivity].
  destruct (preset_cases r Hp) as [-> | [-> | ->]]; reflexivity.
Qed.


Lemma aggressive_retry_decorator : decorator aggressive_retry.
Proof. left. unfold presets. repeat constructor. Qed.







(** Every decorator ends its run, after at least one invocation of the
    operation and at most [max(1, max_attempts)] of them, whatever the
    operation does. *)
Theorem decorator_attempt_ceiling {A : Type} (r : Retrying) (fn : nat → Outcome A) :
  decorator r →
  ∃ res tr, call r fn = Some (res, tr) ∧ (1 ≤ calls tr ≤ ceiling r)%nat.
Proof.
  intros _. destruct (call_total r fn) as [[res tr] Hrun].
  exists res, tr. split; [exact Hrun|].
  destruct (call_run_shape r fn res tr Hrun) as (c & Hc & _ & _ & Hpre & _).
  unfold ceiling. destruct c as [|c]; [lia|].
  destruct (Hpre c ltac:(lia)) as [_ Hlt]. lia.
Qed.

Lemma decorator_attempt_ceiling_witness :
  decorator aggressive_retry ∧
  ∃ res tr, call aggressive_retry tries_again_once = Some (res, tr) ∧
            (1 ≤ calls tr ≤ ceiling aggressive_retry)%nat.
Proof.
  split; [exact aggressive_retry_decorator|].
  exact (decorator_attempt_ceiling aggressive_retry tries_again_once
           aggressive_retry_decorator).
Defined.





(** An invocation is followed by another one only if it raised an error of
    a retryable kind or tenacity's [TryAgain]; in particular a value the
    operation returned is never thrown away. *)
Theorem decorator_retries_only_failures {A : Type} (r : Retrying)
    (fn : nat → Outcome A) (res : Result A) (tr : Trace) :
  decorator r →
  call r fn = Some (res, tr) →
  ∀ i, (S i < calls tr)%nat →
    ∃ e, fn i = Failed e ∧
         (isinstance e (retryable_error_kinds r) = true ∨
          isinstance e [TryAgain] = true).
Proof.
  intros _ Hrun i Hi.
  destruct (call_run_shape r fn res tr Hrun) as (c & Hc & _ & _ & Hpre & _).
  destruct (Hpre i ltac:(lia)) as [Hreq _].
  destruct (fn i) as [v|e]; [discriminate|].
  exists e. split; [reflexivity|].
  unfold retry_requested, retry_call in Hreq.
  apply orb_true_iff in Hreq as [Hagain|Hkind]; [right|left; exact Hkind].
  unfold isinstance. cbn [existsb]. rewrite Hagain. reflexivity.
Qed.

Lemma decorator_retries_only_failures_witness :
  decorator aggressive_retry ∧
  call aggressive_retry tries_again_once
    = Some (Return tt, {| calls := 2; sleeps := [2]; warnings := 1 |}) ∧
  ∀ i, (S i < 2)%nat →
    ∃ e, tries_again_once i = Failed e ∧
         (isinstance e (retryable_error_kinds aggressive_retry) = true ∨
          isinstance e [TryAgain] = true).
Proof.
  split; [exact aggressive_retry_decorator|]. split; [reflexivity|].
  exact (decorator_retries_only_failures aggressive_retry tries_again_once _ _
           aggressive_retry_decorator eq_refl).
Defined.










(** With a multiplier that is not negative, the sleeps of a run never get
    shorter from one attempt to a later one. *)
Theorem decorator_sleeps_never_shrink {A : Type} (r : Retrying)
    (fn : nat → Outcome A) (res : Result A) (tr : Trace)
    (i j : nat) (si sj : Z) :
  decorator r →
  0 ≤ multiplier (wait r) →
  call r fn = Some (res, tr) →
  (i ≤ j)%nat →
  sleeps tr !! i = Some si →
  sleeps tr !! j = Some sj →
  si ≤ sj.
Proof.
  intros Hd Hm Hrun Hij Hi Hj.
  destruct (call_run_shape r fn res tr Hrun) as (c & _ & Hsl & _).
  rewrite Hsl in Hi, Hj.
  assert (Hjc : (j < c)%nat).
  { apply lookup_lt_Some in Hj. rewrite length_backoffs in Hj. exact Hj. }
  rewrite lookup_backoffs in Hi, Hj by lia.
  injection Hi as <-. injection Hj as <-.
  apply backoff_mono; [exact Hm|rewrite (decorator_exp_base r Hd); lia|lia].
Qed.

Lemma decorator_sleeps_never_shrink_witness :
  decorator aggressive_retry ∧
  0 ≤ multiplier (wait aggressive_retry) ∧
  call aggressive_retry rate_limited =
    Some (Raise (mkExc RateLimitError "429 Too Many Requests"),
          {| calls := 10; sleeps := [2; 4; 8; 16; 32; 64; 120; 120; 120];
             warnings := 9 |}) ∧
  (5 ≤ 7)%nat ∧ 64 ≤ 120.
Proof.
  assert (Hm : 0 ≤ multiplier (wait aggressive_retry)) by (cbn; lia).
  assert (Hij : (5 ≤ 7)%nat) by lia.
  assert (Hrun : call aggressive_retry rate_limited =
    Some (Raise (mkExc RateLimitError "429 Too Many Requests"),
          {| calls := 10; sleeps := [2; 4; 8; 16; 32; 64; 120; 120; 120];
             warnings := 9 |})) by (vm_compute; reflexivity).
  split; [exact aggressive_retry_decorator|]. split; [exact Hm|].
  split; [exact Hrun|]. split; [exact Hij|].
  exact (decorator_sleeps_never_shrink aggressive_retry rate_limited _ _ 5 7 64 120
           aggressive_retry_decorator Hm Hrun Hij eq_refl eq_refl).
Defined.



(** In the worst case a call sleeps 15 seconds under the standard preset,
    486 seconds under the aggressive preset and 3 seconds under the
    conservative preset; no run of a preset sleeps longer. *)
Theorem presets_total_sleep {A : Type} (p : Retrying) (fn : nat → Outcome A)
    (res : Result A) (tr : Trace) :
  p ∈ presets →
  call p fn = Some (res, tr) →
  worst_case_sleep <$> presets = [15; 486; 3] ∧
  sumZ (sleeps tr) ≤ worst_case_sleep p.
Proof.
  intros _ Hrun. split; [vm_compute; reflexivity|].
  destruct (call_run_shape p fn res tr Hrun) as (c & _ & Hsl & _ & Hpre & _).
  unfold worst_case_sleep. rewrite Hsl. apply sumZ_backoffs_mono. unfold ceiling.
  destruct c as [|c]; [lia|]. destruct (Hpre c ltac:(lia)) as [_ Hlt]. lia.
Qed.

Lemma presets_total_sleep_witness :
  aggressive_retry ∈ presets ∧
  call aggressive_retry rate_limited =
    Some (Raise (mkExc RateLimitError "429 Too Many Requests"),
          {| calls := 10; sleeps := [2; 4; 8; 16; 32; 64; 120; 120; 120];
             warnings := 9 |}) ∧
  worst_case_sleep <$> presets = [15; 486; 3] ∧
  sumZ [2; 4; 8; 16; 32; 64; 120; 120; 120] ≤ worst_case_sleep aggressive_retry.
Proof.
  assert (Hp : aggressive_retry ∈ presets) by (unfold presets; repeat constructor).
  assert (Hrun : call aggressive_retry rate_limited =
    Some (Raise (mkExc RateLimitError "429 Too Many Requests"),
          {| calls := 10; sleeps := [2; 4; 8; 16; 32; 64; 120; 120; 120];
             warnings := 9 |})) by (vm_compute; reflexivity).
  split; [exact Hp|]. split; [exact Hrun|].
  exact (presets_total_sleep aggressive_retry rate_limited _ _ Hp Hrun).
Defined.

(** Under each preset the lower bound of the wait never takes effect: the
    sleep after attempt [k] is [multiplier * 2^(k-1)], cut off at the
    maximum wait of the preset, in every run. *)
Theorem presets_wait_doubles_up_to_cap {A : Type} (p : Retrying)
    (fn : nat → Outcome A) (res : Result A) (tr : Trace) (k : nat) (s : Z) :
  p ∈ presets →
  call p fn = Some (res, tr) →
  sleeps tr !! k = Some s →
  s = Z.min (wait_max (wait p)) (multiplier (wait p) * 2 ^ Z.of_nat k).
Proof.
  intros Hp Hrun Hs.
  destruct (call_run_shape p fn res tr Hrun) as (c & _ & Hsl & _).
  rewrite Hsl in Hs.
  assert (Hk : (k < c)%nat).
  { apply lookup_lt_Some in Hs. rewrite length_backoffs in Hs. exact Hs. }
  rewrite lookup_backoffs in Hs by lia. injection Hs as <-.
  unfold backoff. replace (1 + Z.of_nat k - 1) with (Z.of_nat k) by lia.
  assert (0 < 2 ^ Z.of_nat k) by (apply Z.pow_pos_nonneg; lia).
  destruct (preset_cases p Hp) as [-> | [-> | ->]]; cbn; lia.
Qed.

Lemma presets_wait_doubles_up_to_cap_witness :
  aggressive_retry ∈ presets ∧
  call aggressive_retry rate_limited =
    Some (Raise (mkExc RateLimitError "429 Too Many Requests"),
          {| calls := 10; sleeps := [2; 4; 8; 16; 32; 64; 120; 120; 120];
             warnings := 9 |}) ∧
  120 = Z.min (wait_max (wait aggressive_retry))
          (multiplier (wait aggressive_retry) * 2 ^ Z.of_nat 6).
Proof.
  assert (Hp : aggressive_retry ∈ presets) by (unfold presets; repeat constructor).
  assert (Hrun : call aggressive_retry rate_limited =
    Some (Raise (mkExc RateLimitError "429 Too Many Requests"),
          {| calls := 10; sleeps := [2; 4; 8; 16; 32; 64; 120; 120; 120];
             warnings := 9 |})) by (vm_compute; reflexivity).
  split; [exact Hp|]. split; [exact Hrun|].
  exact (presets_wait_doubles_up_to_cap aggressive_retry rate_limited _ _ 6 120
           Hp Hrun eq_refl).
Defined.



(** [with_retry] with [max_attempts] of 1, 0 or a negative number still
    invokes the operation, exactly once, and hands its outcome to the
    caller. *)
Theorem with_retry_ceiling_below_two {A : Type}
    (max_attempts min_wait max_wait multiplier : Z) (fn : nat → Outcome A) :
  max_attempts ≤ 1 →
  call (with_retry max_attempts min_wait max_wait multiplier) fn =
    Some (fut_result (fn 0%nat), {| calls := 1; sleeps := []; warnings := 0 |}).
Proof.
  intros Hm. rewrite call_single_attempt by exact Hm.
  destruct (fn 0%nat) as [v|e]; [reflexivity|].
  destruct (retry_requested _ _); reflexivity.
Qed.

Lemma with_retry_ceiling_below_two_witness :
  0 ≤ 1 ∧
  call (with_retry 0 1 60 2) rate_limited =
    Some (fut_result (rate_limited 0%nat),
          {| calls := 1; sleeps := []; warnings := 0 |}).
Proof.
  assert (H : 0 ≤ 1) by lia.
  split; [exact H|].
  exact (with_retry_ceiling_below_two 0 1 60 2 rate_limited H).
Defined.

End DecoratorRuns.

(* ===================================================================== *)
(** ** Loading [shared/retry_config.py] *)
(* ===================================================================== *)

Module ModuleLoading.
Import Py Tenacity RetryConfig.

(** Each provider option repeats the attempt ceiling, the minimum wait (as
    initial delay) and the base 2 of the decorator preset of the same
    name, but carries no maximum delay, while every decorator preset caps
    its waits. *)
Theorem provider_options_mirror_presets :
  ∃ b, load_module Imported = inr b ∧
    Forall2 (λ p o, ∃ opts, o = Some opts ∧
               GenaiTypes.attempts opts = Some (max_attempt_number (stop p)) ∧
               GenaiTypes.initial_delay opts = Some (wait_min (wait p)) ∧
               GenaiTypes.exp_base opts = Some (exp_base (wait p)) ∧
               GenaiTypes.max_delay opts = None)
      presets (provider_options b).
Proof.
  eexists. split; [reflexivity|].
  repeat constructor; eexists; repeat split.
Qed.

End ModuleLoading.

(* ===================================================================== *)
(** ** The environment check and the [.env] file *)
(* ===================================================================== *)

Module EnvCheck.
Import TestEnvVars.

(** The output is a function of the three checked keys of the merged
    environment. *)
Lemma script_ext (dotenv environ dotenv' environ' : gmap string string) :
  (∀ key, key ∈ checked_keys →
     getenv (load_dotenv dotenv environ) key = getenv (load_dotenv dotenv' environ') key) →
  script dotenv environ = script dotenv' environ'.
Proof.
  intros H. unfold script. cbv zeta.
  rewrite (H "OPENAI_API_KEY"), (H "ANTHROPIC_API_KEY"), (H "GEMINI_API_KEY");
    [reflexivity|unfold checked_keys; repeat constructor..].
Qed.

(** The [.env] file reaches the output only through the values
    python-dotenv resolves for the checked keys that the process
    environment does not define: two files whose resolved values agree on
    those keys give the same output. *)
Theorem dotenv_only_fills_missing_keys
    (dotenv_values dotenv_values' environ : gmap string string) :
  (∀ key, key ∈ checked_keys → environ !! key = None →
     dotenv_values !! key = dotenv_values' !! key) →
  script dotenv_values environ = script dotenv_values' environ.
Proof.
  intros H. apply script_ext. intros key Hkey.
  unfold getenv, load_dotenv. rewrite !lookup_union.
  destruct (environ !! key) as [v|] eqn:He.
  - destruct (dotenv_values !! key), (dotenv_values' !! key); reflexivity.
  - rewrite (H key Hkey He). reflexivity.
Qed.

Lemma dotenv_only_fills_missing_keys_witness :
  script {[ "OPENAI_API_KEY" := "from-file" ]} {[ "OPENAI_API_KEY" := "" ]}
    = script ∅ {[ "OPENAI_API_KEY" := "" ]}.
Proof.
  apply (dotenv_only_fills_missing_keys
           {[ "OPENAI_API_KEY" := "from-file" ]} ∅ {[ "OPENAI_API_KEY" := "" ]}).
  intros key Hkey Hnone. unfold checked_keys in Hkey.
  rewrite !elem_of_cons in Hkey.
  destruct Hkey as [-> | [-> | [-> | Hnil]]];
    [discriminate Hnone|reflexivity|reflexivity|inversion Hnil].
Defined.

(** A checked key that the process environment defines as the empty string
    is reported as not set, even if the [.env] file gives it a value. *)
Theorem empty_value_hides_dotenv (dotenv environ : gmap string string)
    (i : nat) (key : string) :
  checked_keys !! i = Some key →
  environ !! key = Some "" →
  script dotenv environ !! i = Some ("✗ " +:+ key +:+ " is NOT set").
Proof.
  intros Hi He.
  assert (Hget : getenv (load_dotenv dotenv environ) key = Some "").
  { unfold getenv, load_dotenv. by apply lookup_union_Some_l. }
  unfold script. cbv zeta.
  destruct i as [|[|[|i]]]; cbn in Hi; [| | |discriminate];
    injection Hi as <-; rewrite Hget; reflexivity.
Qed.

Lemma empty_value_hides_dotenv_witness :
  checked_keys !! 1%nat = Some "ANTHROPIC_API_KEY" ∧
  script {[ "ANTHROPIC_API_KEY" := "sk-ant-file" ]} {[ "ANTHROPIC_API_KEY" := "" ]} !! 1%nat
    = Some "✗ ANTHROPIC_API_KEY is NOT set".
Proof.
  split; [reflexivity|].
  apply (empty_value_hides_dotenv {[ "ANTHROPIC_API_KEY" := "sk-ant-file" ]}
           {[ "ANTHROPIC_API_KEY" := "" ]} 1 "ANTHROPIC_API_KEY");
    reflexivity.
Defined.

(** A checked key that the process environment does not define and for
    which python-dotenv resolves a non-empty value from the [.env] file is
    reported as set; for [ANTHROPIC_API_KEY] that resolved value is
    printed. *)
Theorem dotenv_value_is_reported (dotenv_values environ : gmap string string)
    (i : nat) (key value : string) :
  checked_keys !! i = Some key →
  environ !! key = None →
  dotenv_values !! key = Some value →
  value ≠ "" →
  script dotenv_values environ !! i =
    Some ("✓ " +:+ key +:+ " is set" +:+
          (if decide (key = "ANTHROPIC_API_KEY") then ": " +:+ value else "")).
Proof.
  intros Hi He Hd Hv.
  assert (Hget : getenv (load_dotenv dotenv_values environ) key = Some value).
  { unfold getenv, load_dotenv. rewrite lookup_union_r by exact He. exact Hd. }
  assert (Ht : truthy (Some value) = true).
  { unfold truthy. by rewrite bool_decide_eq_false_2. }
  unfold script. cbv zeta.
  destruct i as [|[|[|i]]]; cbn in Hi; [| | |discriminate];
    injection Hi as <-; rewrite Hget, Ht; reflexivity.
Qed.

Lemma dotenv_value_is_reported_witness :
  script {[ "ANTHROPIC_API_KEY" := "sk-ant-file" ]} ∅ !! 1%nat
    = Some "✓ ANTHROPIC_API_KEY is set: sk-ant-file".
Proof.
  apply (dotenv_value_is_reported {[ "ANTHROPIC_API_KEY" := "sk-ant-file" ]} ∅
           1 "ANTHROPIC_API_KEY" "sk-ant-file");
    [reflexivity|reflexivity|reflexivity|discriminate].
Defined.

End EnvCheck.

(* ===================================================================== *)
(** ** The retry options [day_one/main.py] hands to the model *)
(* ===================================================================== *)

Module MainSpec.
Import Py RetryConfig Main.

Lemma import_module_fresh (first_import : string → ImportOutcome)
    (sys_modules : gset string) (name : string) :
  name ∉ sys_modules →
  import_module first_import sys_modules name =
    match first_import name with
    | Imported => (Imported, {[ name ]} ∪ sys_modules)
    | ImportRaised e => (ImportRaised e, sys_modules)
    end.
Proof. intros H. unfold import_module. by rewrite decide_False. Qed.

Lemma import_module_cached (first_import : string → ImportOutcome)
    (sys_modules : gset string) (name : string) :
  name ∈ sys_modules →
  import_module first_import sys_modules name = (Imported, sys_modules).
Proof. intros H. unfold import_module. by rewrite decide_True. Qed.

(** Membership of a module name in a set of names that is written out. *)
Ltac fresh_module := apply (bool_decide_unpack _); vm_compute; exact I.

(** [main.py] never hands the fallback [None] to the model.  Either one of
    its imports raises and the script ends with that exception, or the
    provider library was imported before [shared.retry_config] ran and
    [retry_options] is the conservative option with 3 attempts. *)
Theorem main_never_passes_none (first_import : string → ImportOutcome) :
  match main_retry_options first_import with
  | inl e => ∃ name, first_import name = ImportRaised e
  | inr o =>
      first_import "google.genai" = Imported ∧
      o = Some (HttpRetryOptions 3 2 1 [429; 500; 503; 504])
  end.
Proof.
  unfold main_retry_options. cbn [import_all].
  rewrite import_module_fresh by fresh_module.
  destruct (first_import "dotenv") eqn:H1; [|eauto].
  rewrite import_module_fresh by fresh_module.
  destruct (first_import "google.adk.agents") eqn:H2; [|eauto].
  rewrite import_module_fresh by fresh_module.
  destruct (first_import "google.adk.models.google_llm") eqn:H3; [|eauto].
  rewrite import_module_fresh by fresh_module.
  destruct (first_import "google.adk.runners") eqn:H4; [|eauto].
  rewrite import_module_fresh by fresh_module.
  destruct (first_import "google.adk.tools") eqn:H5; [|eauto].
  rewrite import_module_fresh by fresh_module.
  destruct (first_import "google.genai") eqn:H6; [|eauto].
  unfold import_retry_config.
  rewrite import_module_fresh by fresh_module.
  destruct (first_import "tenacity") eqn:H7; [|eauto].
  rewrite import_module_cached by fresh_module.
  cbn. auto.
Qed.

(** Both ways of ending occur. *)
Example main_with_everything_installed :
  main_retry_options everything_installed
    = inr (Some (HttpRetryOptions 3 2 1 [429; 500; 503; 504])).
Proof. vm_compute. reflexivity. Qed.

Example main_without_provider_library :
  main_retry_options without_genai
    = inl (mkExc ModuleNotFoundError "No module named 'google.genai'").
Proof. vm_compute. reflexivity. Qed.

End MainSpec.
